(** * A to-do service: five request handlers over one table

    Shallow embedding of [main.py] and [database.py].

    - The table [todos] (declared by [ToDoDB]) is a finite map from the
      integer primary key [id] to the three remaining columns.
    - A [Session] is the unit of work that [get_db] hands to a handler: the
      database it is bound to, plus the mapped objects the handler holds.
      Handlers hold references to objects, so the session keeps them in a
      store and the handlers pass handles around.
    - A handler is a computation in a state-and-exception monad over the
      session; [HTTPException] is one of the exceptions.

    Integers are Python's: unbounded.  The engine's row ids are signed
    64-bit integers: the driver refuses an id that does not fit, and the
    engine stops counting upwards once the largest row id is in use.

    The table [todos] is taken to exist.  ([Base.metadata.create_all] on
    line 11 of main.py runs before [ToDoDB] is declared: it creates no
    table, so the table is there only if the database file already holds
    it.)  Failures of the disk or of the connection are not handled by
    the code and are outside this development. *)

From Stdlib Require Import ZArith String List.
From stdpp Require Import base option gmap strings list fin_maps sorting.

Local Open Scope string_scope.
Local Open Scope Z_scope.
Local Open Scope list_scope.

(** ** Python values that flow through the handlers *)

Inductive value : Type :=
| VNone
| VBool (b : bool)
| VInt (z : Z)
| VStr (s : string).

#[global] Instance value_eq_dec : EqDecision value.
Proof. solve_decision. Defined.

(** A Python [dict] with string keys, in insertion order. *)
Abbreviation pydict := (list (string * value)).

(** ** The request schema ([ToDoSchema], main.py 30-33) *)

(** The JSON body of a request, field by field: each field is either
    supplied with a value of its declared type or omitted.  A
    [description] sent as [null] validates to [None] like an omitted
    one, so both are [None] here. *)
Module Body.
Record t := mk {
  title : option string;
  description : option string;
  completed : option bool
}.
End Body.

Module ToDoSchema.
(** [title: str], [description: str = None], [completed: bool = False] *)
Record t := mk {
  title : string;
  description : option string;
  completed : bool
}.

(** Validation of a body: [title] is required, the other two fields
    fall back to the defaults of the class. *)
Definition validate (b : Body.t) : option t :=
  match Body.title b with
  | None => None
  | Some s => Some (mk s (Body.description b) (default false (Body.completed b)))
  end.

(** [todo.dict()]: every field of the model, in declaration order. *)
Definition dict (m : t) : pydict :=
  [ ("title", VStr (title m));
    ("description", from_option VStr VNone (description m));
    ("completed", VBool (completed m)) ].
End ToDoSchema.

(** ** The mapped class ([ToDoDB], main.py 22-27) *)

Module ToDoDB.
Definition __tablename__ : string := "todos".

(** The attributes of an instance; [VNone] is Python's [None]. *)
Record t := mk {
  id : value;
  title : value;
  description : value;
  completed : value
}.

Definition columns : list string := ["id"; "title"; "description"; "completed"].

(** [setattr(o, key, value)].  A key that is not a mapped column would
    become a plain Python attribute, which the table never sees. *)
Definition setattr (o : t) (key : string) (v : value) : t :=
  if decide (key = "id") then mk v (title o) (description o) (completed o)
  else if decide (key = "title") then mk (id o) v (description o) (completed o)
  else if decide (key = "description") then mk (id o) (title o) v (completed o)
  else if decide (key = "completed") then mk (id o) (title o) (description o) v
  else o.

Definition blank : t := mk VNone VNone VNone VNone.
End ToDoDB.

#[global] Instance ToDoDB_eq_dec : EqDecision ToDoDB.t.
Proof. solve_decision. Defined.

(** ** The table [todos] *)

Module todos.
(** The columns of a row other than its primary key. *)
Record row := mk {
  title : value;
  description : value;
  completed : value
}.
End todos.

#[global] Instance todos_row_eq_dec : EqDecision todos.row.
Proof. solve_decision. Defined.

(** The stored state: primary key [id] to row. *)
Abbreviation table := (gmap Z todos.row).

(** The instance the mapper builds from the row stored under [pk]. *)
Definition load (pk : Z) (r : todos.row) : ToDoDB.t :=
  ToDoDB.mk (VInt pk) (todos.title r) (todos.description r) (todos.completed r).

(** The column values an instance writes. *)
Definition store (o : ToDoDB.t) : todos.row :=
  todos.mk (ToDoDB.title o) (ToDoDB.description o) (ToDoDB.completed o).

(** The column values an [INSERT] writes.  [completed] is declared with
    [default=False]: an instance that carries no value for it is stored
    with [False].  The other columns have no default. *)
Definition insert_values (o : ToDoDB.t) : todos.row :=
  todos.mk (ToDoDB.title o) (ToDoDB.description o)
    (match ToDoDB.completed o with
     | VNone => VBool false
     | v => v
     end).

(** Row ids are signed 64-bit integers. *)
Definition MIN_ROWID : Z := -9223372036854775808.

Definition MAX_ROWID : Z := 9223372036854775807.

Definition fits_int64 (z : Z) : bool :=
  (MIN_ROWID <=? z) && (z <=? MAX_ROWID).

(** The largest primary key in use, if any. *)
Definition max_rowid (db : table) : option Z :=
  foldr (fun kv acc => Some (match acc with
                             | None => kv.1
                             | Some m => Z.max kv.1 m
                             end)) None (map_to_list db).

(** The least positive key that is not in use: one of the first
    [size db + 1] positive integers is free. *)
Definition unused_rowid (db : table) : Z :=
  match list_find (fun k => db !! k = None) (seqZ 1 (Z.of_nat (size db) + 1)) with
  | Some (_, k) => k
  | None => 1
  end.

(** [id] is an [INTEGER PRIMARY KEY] column declared without
    [AUTOINCREMENT] ([Column(Integer, primary_key=True)] on the SQLite
    engine of database.py).  An insert that does not supply it receives
    1 in an empty table and otherwise one more than the largest key
    currently in the table, as long as that key is below the largest row
    id.  Once the largest row id is in use the engine draws positive
    candidates at random until it finds one that is not in use; which one
    it finds is not determined, and the least one stands for it here.
    (The engine abandons the insert when its draws keep hitting ids in
    use; that outcome is left out.) *)
Definition new_rowid (db : table) : Z :=
  match max_rowid db with
  | None => 1
  | Some m => if decide (m < MAX_ROWID) then m + 1 else unused_rowid db
  end.

(** Rows as a full scan yields them: by ascending primary key. *)
Definition key_le (a b : Z * todos.row) : Prop := (a.1 ≤ b.1)%Z.

#[global] Instance key_le_dec a b : Decision (key_le a b).
Proof. unfold key_le. apply _. Defined.

Definition scan (db : table) : list (Z * todos.row) :=
  merge_sort key_le (map_to_list db).

(** ** Exceptions and the handler monad *)

Inductive exn : Type :=
| HTTPException (status_code : Z) (detail : string)
| TypeError
| IntegrityError
| StaleDataError
| InvalidRequestError
| ValidationError
| OverflowError.

Inductive result (A : Type) : Type :=
| Return (a : A)
| Raise (e : exn).
Arguments Return {A} a.
Arguments Raise {A} e.

(** Life cycle of a mapped object within a session. *)
Inductive instance_state : Type :=
| Transient
| Pending
| Persistent (pk : Z)
| Deleted (pk : Z)
| Detached.

#[global] Instance instance_state_eq_dec : EqDecision instance_state.
Proof. solve_decision. Defined.

Record instance := Instance {
  state : instance_state;
  attrs : ToDoDB.t
}.

(** A reference to a mapped object: its position in the session's store. *)
Abbreviation obj := nat.

Record Session := mkSession {
  bind : table;
  instances : list instance
}.

Definition M (A : Type) : Type := Session -> result A * Session.

Definition ret {A} (a : A) : M A := fun s => (Return a, s).

Definition raise {A} (e : exn) : M A := fun s => (Raise e, s).

Definition mbind {A B} (m : M A) (k : A -> M B) : M B :=
  fun s => match m s with
           | (Return a, s') => k a s'
           | (Raise e, s') => (Raise e, s')
           end.

Declare Scope handler_scope.
Delimit Scope handler_scope with handler.
Notation "x <- m ;; k" := (mbind m (fun x => k))
  (at level 100, m at next level, right associativity) : handler_scope.
Notation "m ;; k" := (mbind m (fun _ => k))
  (at level 100, right associativity) : handler_scope.
Local Open Scope handler_scope.

(** [for x in l: body(x)] *)
Fixpoint for_each {A} (l : list A) (body : A -> M unit) : M unit :=
  match l with
  | [] => ret tt
  | x :: l' => body x ;; for_each l' body
  end.

(** [[f(x) for x in l]] with an effectful [f]. *)
Fixpoint map_each {A B} (l : list A) (f : A -> M B) : M (list B) :=
  match l with
  | [] => ret []
  | x :: l' => y <- f x ;; ys <- map_each l' f ;; ret (y :: ys)
  end.

(** ** Session operations *)

(** [SessionLocal()]: a fresh session bound to the engine. *)
Definition SessionLocal (engine : table) : Session := mkSession engine [].

Definition allocate (i : instance) : M obj :=
  fun s => (Return (length (instances s)),
            mkSession (bind s) (instances s ++ [i])).

(** The constructor [ToDoDB] applied to keyword arguments: a keyword
    that is not an attribute of the class is rejected, the others are
    set on a new, transient object. *)
Definition ToDoDB_new (kwargs : pydict) : M obj :=
  if forallb (fun kv => bool_decide (kv.1 ∈ ToDoDB.columns)) kwargs
  then allocate (Instance Transient
                   (fold_left (fun o kv => ToDoDB.setattr o kv.1 kv.2) kwargs ToDoDB.blank))
  else raise TypeError.

(** [setattr(o, key, value)] on a mapped object. *)
Definition setattr (o : obj) (key : string) (v : value) : M unit :=
  fun s => (Return tt,
            mkSession (bind s)
              (alter (fun i => Instance (state i) (ToDoDB.setattr (attrs i) key v))
                 o (instances s))).

(** The identity map: one object per primary key within a session. *)
Definition identify (pk : Z) (r : todos.row) : M obj :=
  fun s => match list_find (fun i => state i = Persistent pk) (instances s) with
           | Some (o, _) => (Return o, s)
           | None => allocate (Instance (Persistent pk) (load pk r)) s
           end.

(** [db.query(ToDoDB).filter(ToDoDB.id == todo_id).first()].  The session
    is created with [autoflush=False]: a query reads the database as it
    is and flushes nothing.  The driver passes [todo_id] to the engine as
    a signed 64-bit integer and raises [OverflowError] when it does not
    fit.  Row ids fit, so an id that does not fit is the id of no row:
    looking the row up first and testing the id only when there is none
    gives what driver and engine give on every table the engine can
    hold. *)
Definition query_first (todo_id : Z) : M (option obj) :=
  fun s => match bind s !! todo_id with
           | Some r => (o <- identify todo_id r ;; ret (Some o)) s
           | None =>
               if fits_int64 todo_id then (Return None, s)
               else (Raise OverflowError, s)
           end.

(** [db.query(ToDoDB).all()] *)
Definition query_all : M (list obj) :=
  fun s => map_each (scan (bind s)) (fun kv => identify kv.1 kv.2) s.

(** [db.add(o)] *)
Definition add (o : obj) : M unit :=
  fun s => (Return tt,
            mkSession (bind s)
              (alter (fun i => match state i with
                               | Transient => Instance Pending (attrs i)
                               | _ => i
                               end) o (instances s))).

(** [db.delete(o)] *)
Definition delete_ (o : obj) : M unit :=
  fun s => match instances s !! o with
           | Some (Instance (Persistent pk) a) =>
               (Return tt, mkSession (bind s) (<[o := Instance (Deleted pk) a]> (instances s)))
           | _ => (Raise InvalidRequestError, s)
           end.

(** What a flush emits for one object.
    - pending: [INSERT]; the engine assigns the key when [id] is [None];
    - persistent: [UPDATE todos SET ... WHERE id = pk];
    - deleted: [DELETE FROM todos WHERE id = pk]. *)
Definition flush_instance (i : instance) (db : table) : result (instance * table) :=
  match state i with
  | Transient | Detached => Return (i, db)
  | Pending =>
      match ToDoDB.id (attrs i) with
      | VNone =>
          let pk := new_rowid db in
          Return (Instance (Persistent pk) (load pk (insert_values (attrs i))),
                  <[pk := insert_values (attrs i)]> db)
      | VInt pk =>
          match db !! pk with
          | None => Return (Instance (Persistent pk) (load pk (insert_values (attrs i))),
                            <[pk := insert_values (attrs i)]> db)
          | Some _ => Raise IntegrityError
          end
      | _ => Raise IntegrityError
      end
  | Persistent pk =>
      match db !! pk with
      | None => Raise StaleDataError
      | Some _ =>
          match ToDoDB.id (attrs i) with
          | VInt k =>
              if decide (k = pk) then Return (i, <[pk := store (attrs i)]> db)
              else match db !! k with
                   | None => Return (Instance (Persistent k) (attrs i),
                                     <[k := store (attrs i)]> (delete pk db))
                   | Some _ => Raise IntegrityError
                   end
          | _ => Raise IntegrityError
          end
      end
  | Deleted pk => Return (Instance Detached (attrs i), delete pk db)
  end.

Fixpoint flush (l : list instance) (db : table) : result (list instance * table) :=
  match l with
  | [] => Return ([], db)
  | i :: l' =>
      match flush_instance i db with
      | Raise e => Raise e
      | Return (i', db') =>
          match flush l' db' with
          | Raise e => Raise e
          | Return (l'', db'') => Return (i' :: l'', db'')
          end
      end
  end.

(** [db.commit()]: flush the unit of work, object by object, and make
    it durable.  When the flush fails the transaction is rolled back and
    the database keeps its rows.  (No handler holds more than one changed
    object, so the order of the flush plays no role.) *)
Definition commit : M unit :=
  fun s => match flush (instances s) (bind s) with
           | Return (l, db) => (Return tt, mkSession db l)
           | Raise e => (Raise e, s)
           end.

(** [db.refresh(o)]: reload the attributes of a persistent object. *)
Definition refresh (o : obj) : M unit :=
  fun s => match instances s !! o with
           | Some (Instance (Persistent pk) _) =>
               match bind s !! pk with
               | Some r => (Return tt,
                            mkSession (bind s)
                              (<[o := Instance (Persistent pk) (load pk r)]> (instances s)))
               | None => (Raise InvalidRequestError, s)
               end
           | _ => (Raise InvalidRequestError, s)
           end.

(** ** The handlers (main.py 44-85) *)

Definition create_todo (todo : ToDoSchema.t) : M obj :=
  db_todo <- ToDoDB_new (ToDoSchema.dict todo) ;;
  add db_todo ;;
  commit ;;
  refresh db_todo ;;
  ret db_todo.

Definition get_todos : M (list obj) :=
  query_all.

Definition get_todo (todo_id : Z) : M obj :=
  todo <- query_first todo_id ;;
  match todo with
  | None => raise (HTTPException 404 "To-Do not found")
  | Some todo => ret todo
  end.

Definition update_todo (todo_id : Z) (updated_todo : ToDoSchema.t) : M obj :=
  todo <- query_first todo_id ;;
  match todo with
  | None => raise (HTTPException 404 "To-Do not found")
  | Some todo =>
      for_each (ToDoSchema.dict updated_todo) (fun kv => setattr todo kv.1 kv.2) ;;
      commit ;;
      refresh todo ;;
      ret todo
  end.

Definition delete_todo (todo_id : Z) : M pydict :=
  todo <- query_first todo_id ;;
  match todo with
  | None => raise (HTTPException 404 "To-Do not found")
  | Some todo =>
      delete_ todo ;;
      commit ;;
      ret [("message", VStr "To-Do deleted successfully")]
  end.

(** ** The response schema ([ToDoResponse], main.py 35-39) *)

Module ToDoResponse.
(** [ToDoSchema] extended with [id: int]. *)
Record t := mk {
  id : Z;
  title : string;
  description : option string;
  completed : bool
}.

(** [orm_mode]: the fields are read from the attributes of the object
    and must have the declared types. *)
Definition from_attrs (a : ToDoDB.t) : option t :=
  match ToDoDB.id a, ToDoDB.title a, ToDoDB.completed a with
  | VInt i, VStr s, VBool b =>
      match ToDoDB.description a with
      | VNone => Some (mk i s None b)
      | VStr d => Some (mk i s (Some d) b)
      | _ => None
      end
  | _, _, _ => None
  end.
End ToDoResponse.

(** The attributes of the object a handler returned. *)
Definition attributes (o : obj) : M ToDoDB.t :=
  fun s => match instances s !! o with
           | Some i => (Return (attrs i), s)
           | None => (Raise InvalidRequestError, s)
           end.

(** [response_model=ToDoResponse] *)
Definition from_orm (o : obj) : M ToDoResponse.t :=
  a <- attributes o ;;
  match ToDoResponse.from_attrs a with
  | Some r => ret r
  | None => raise ValidationError
  end.

(** ** The application *)

(** [get_db] (main.py 14-19): the handler runs in a session of its own,
    which is closed on every exit path.  Closing drops the objects and
    whatever was not committed; the database is what remains. *)
Definition close (db : Session) : table := bind db.

Definition get_db {A} (handler : M A) (engine : table) : result A * table :=
  let db := SessionLocal engine in
  match handler db with
  | (r, db') => (r, close db')
  end.

Inductive content : Type :=
| Todo (r : ToDoResponse.t)
| Todos (l : list ToDoResponse.t)
| Json (o : pydict)
| RequestValidationError
| InternalServerError.

Record response := Response {
  status_code : Z;
  body : content
}.

(** A returned value is sent with status 200; an [HTTPException] with its
    own status and its detail; anything else is an unhandled fault. *)
Definition respond {A} (render : A -> content) (r : result A) : response :=
  match r with
  | Return a => Response 200 (render a)
  | Raise (HTTPException code detail) => Response code (Json [("detail", VStr detail)])
  | Raise _ => Response 500 InternalServerError
  end.

Inductive request : Type :=
| POST_todos (b : Body.t)
| GET_todos
| GET_todo (todo_id : Z)
| PUT_todo (todo_id : Z) (b : Body.t)
| DELETE_todo (todo_id : Z).

(** One request against the database: the response and the database
    afterwards.  A body that fails validation never reaches a handler. *)
Definition app (req : request) (engine : table) : response * table :=
  match req with
  | POST_todos b =>
      match ToDoSchema.validate b with
      | None => (Response 422 RequestValidationError, engine)
      | Some todo =>
          let (r, db) := get_db (o <- create_todo todo ;; from_orm o) engine in
          (respond Todo r, db)
      end
  | GET_todos =>
      let (r, db) := get_db (l <- get_todos ;; map_each l from_orm) engine in
      (respond Todos r, db)
  | GET_todo todo_id =>
      let (r, db) := get_db (o <- get_todo todo_id ;; from_orm o) engine in
      (respond Todo r, db)
  | PUT_todo todo_id b =>
      match ToDoSchema.validate b with
      | None => (Response 422 RequestValidationError, engine)
      | Some todo =>
          let (r, db) := get_db (o <- update_todo todo_id todo ;; from_orm o) engine in
          (respond Todo r, db)
      end
  | DELETE_todo todo_id =>
      let (r, db) := get_db (delete_todo todo_id) engine in
      (respond Json r, db)
  end.

(** A sequence of requests served one after the other. *)
Fixpoint serve (reqs : list request) (engine : table) : list response * table :=
  match reqs with
  | [] => ([], engine)
  | req :: reqs' =>
      let (resp, db) := app req engine in
      let (resps, db') := serve reqs' db in
      (resp :: resps, db')
  end.

(** ** Vocabulary of the statements *)

(** What a lookup raises when no row has the id. *)
Definition lookup_failure (todo_id : Z) : exn :=
  if fits_int64 todo_id then HTTPException 404 "To-Do not found" else OverflowError.

(** The response an exception is answered with. *)
Definition failure_response (e : exn) : response :=
  match e with
  | HTTPException code detail => Response code (Json [("detail", VStr detail)])
  | _ => Response 500 InternalServerError
  end.

(** The row a validated request body is written as. *)
Definition row_of (todo : ToDoSchema.t) : todos.row :=
  todos.mk (VStr (ToDoSchema.title todo))
           (from_option VStr VNone (ToDoSchema.description todo))
           (VBool (ToDoSchema.completed todo)).

(** The object the identity map holds for a stored row. *)
Definition persistent (kv : Z * todos.row) : instance :=
  Instance (Persistent kv.1) (load kv.1 kv.2).

(** The response a validated body is answered with once stored under [pk]. *)
Definition response_of (pk : Z) (todo : ToDoSchema.t) : ToDoResponse.t :=
  ToDoResponse.mk pk (ToDoSchema.title todo) (ToDoSchema.description todo)
    (ToDoSchema.completed todo).

(** Reading a row through the response schema. *)
Definition serialize (kv : Z * todos.row) : option ToDoResponse.t :=
  ToDoResponse.from_attrs (load kv.1 kv.2).

Definition or_invalid {A} (o : option A) : result A :=
  match o with
  | Some a => Return a
  | None => Raise ValidationError
  end.

Definition buy_milk : Body.t := Body.mk (Some "Buy milk") None None.

Definition done_row : todos.row :=
  todos.mk (VStr "Pay rent") (VStr "before the 1st") (VBool true).

(** Every stored row has a string in [title]. *)
Definition titled (db : table) : Prop :=
  forall k r, db !! k = Some r -> exists s, todos.title r = VStr s.

(** Every stored row fits the response schema. *)
Definition typed (db : table) : Prop :=
  forall k r, db !! k = Some r -> is_Some (serialize (k, r)).

Definition succeeded (resp : response) : bool :=
  bool_decide (status_code resp = 200).

Definition is_POST (req : request) : bool :=
  match req with POST_todos _ => true | _ => false end.

Definition is_DELETE (req : request) : bool :=
  match req with DELETE_todo _ => true | _ => false end.

(** How many requests of one kind were answered with status 200. *)
Fixpoint tally (kind : request -> bool) (reqs : list request) (resps : list response) : nat :=
  match reqs, resps with
  | req :: reqs', resp :: resps' =>
      ((if kind req && succeeded resp then 1 else 0) + tally kind reqs' resps')%nat
  | _, _ => 0%nat
  end.

(** The ids returned by the POSTs of a served sequence, oldest first. *)
Fixpoint created_ids (reqs : list request) (resps : list response) : list Z :=
  match reqs, resps with
  | POST_todos _ :: reqs', Response _ (Todo x) :: resps' =>
      ToDoResponse.id x :: created_ids reqs' resps'
  | _ :: reqs', _ :: resps' => created_ids reqs' resps'
  | _, _ => []
  end.

(** A GET on an id that no row has is answered 404 with the detail
    "To-Do not found". *)
Definition missing_get_is_404 : Prop :=
  forall (db : table) (todo_id : Z),
    db !! todo_id = None ->
    app (GET_todo todo_id) db
    = (Response 404 (Json [("detail", VStr "To-Do not found")]), db).

(** A PUT with a valid body on an id that no row has is answered 404 and
    leaves the table as it was. *)
Definition missing_put_is_404 : Prop :=
  forall (db : table) (todo_id : Z) (b : Body.t),
    db !! todo_id = None ->
    is_Some (ToDoSchema.validate b) ->
    app (PUT_todo todo_id b) db
    = (Response 404 (Json [("detail", VStr "To-Do not found")]), db).

(** The id a POST returns differs from the id of every row created by
    an earlier request, stored or deleted since. *)
Definition ids_never_reused : Prop :=
  forall (reqs : list request) (b : Body.t) (x : ToDoResponse.t),
    (app (POST_todos b) (serve reqs ∅).2).1 = Response 200 (Todo x) ->
    ToDoResponse.id x ∉ created_ids reqs (serve reqs ∅).1.

(** The body a client sends to write back the values of a response. *)
Definition body_of (x : ToDoResponse.t) : Body.t :=
  Body.mk (Some (ToDoResponse.title x)) (ToDoResponse.description x)
    (Some (ToDoResponse.completed x)).

(** The statuses the application answers on purpose: success, the 404 of
    the handlers, and the rejection of a body that fails validation. *)
Definition handled (resp : response) : Prop :=
  status_code resp = 200 \/ status_code resp = 404 \/ status_code resp = 422.

(** The id in the path of a request, if it has one, fits in 64 bits. *)
Definition path_fits (req : request) : bool :=
  match req with
  | GET_todo todo_id | PUT_todo todo_id _ | DELETE_todo todo_id => fits_int64 todo_id
  | POST_todos _ | GET_todos => true
  end.

Definition full_body : Body.t := Body.mk (Some "Call mum") (Some "on Sunday") (Some true).

Definition two_rows : table :=
  <[ 2 := todos.mk (VStr "Buy milk") VNone (VBool false) ]> {[ 4 := done_row ]}.

(** * Properties *)

(** ** Row ids *)

Lemma max_rowid_bound (db : table) (k : Z) (r : todos.row) :
  db !! k = Some r -> exists m, max_rowid db = Some m /\ (k <= m)%Z.
Proof.
  intros Hk. apply elem_of_map_to_list in Hk. unfold max_rowid.
  induction (map_to_list db) as [|kv l IH]; [by apply elem_of_nil in Hk|].
  apply elem_of_cons in Hk as [<-|Hin]; simpl.
  - destruct (foldr _ None l); eexists; split; eauto; simpl; lia.
  - destruct (IH Hin) as (m & -> & Hle). eexists; split; eauto. lia.
Qed.

Lemma unused_rowid_fresh (db : table) : db !! unused_rowid db = None.
Proof.
  unfold unused_rowid.
  destruct (list_find _ _) as [[i k]|] eqn:E.
  - by apply list_find_Some in E as (_ & Hk & _).
  - exfalso. apply list_find_None in E.
    assert (Hsub : list_to_set (seqZ 1 (Z.of_nat (size db) + 1)) ⊆ dom db).
    { intros k Hk. apply elem_of_list_to_set in Hk.
      rewrite Forall_forall in E. specialize (E k Hk).
      apply elem_of_dom. by destruct (db !! k). }
    apply subseteq_size in Hsub.
    rewrite size_list_to_set, length_seqZ, size_dom in Hsub by apply NoDup_seqZ.
    lia.
Qed.

Lemma new_rowid_fresh (db : table) : db !! new_rowid db = None.
Proof.
  unfold new_rowid. destruct (max_rowid db) as [m|] eqn:Hm.
  - destruct (decide (m < MAX_ROWID)); [|apply unused_rowid_fresh].
    destruct (db !! (m + 1)) as [r|] eqn:E; [|done].
    destruct (max_rowid_bound _ _ _ E) as (m' & Hm' & Hle).
    rewrite Hm in Hm'. injection Hm' as <-. lia.
  - destruct (db !! 1) as [r|] eqn:E; [|done].
    destruct (max_rowid_bound _ _ _ E) as (m' & Hm' & _). congruence.
Qed.

Lemma new_rowid_empty : new_rowid ∅ = 1%Z.
Proof. reflexivity. Qed.

(** ** What each handler does to a fresh session *)

Lemma create_todo_run (todo : ToDoSchema.t) (db : table) :
  create_todo todo (SessionLocal db) =
  (Return 0%nat,
   mkSession (<[new_rowid db := row_of todo]> db)
     [Instance (Persistent (new_rowid db)) (load (new_rowid db) (row_of todo))]).
Proof.
  unfold create_todo, mbind, ToDoDB_new, add, commit, refresh, allocate, ret. simpl.
  unfold flush_instance. simpl.
  rewrite lookup_insert_eq. reflexivity.
Qed.

Lemma get_todo_run (todo_id : Z) (db : table) :
  get_todo todo_id (SessionLocal db) =
  match db !! todo_id with
  | Some r => (Return 0%nat, mkSession db [Instance (Persistent todo_id) (load todo_id r)])
  | None => (Raise (lookup_failure todo_id), SessionLocal db)
  end.
Proof.
  unfold get_todo, mbind, query_first, lookup_failure. simpl.
  destruct (db !! todo_id); [reflexivity|].
  destruct (fits_int64 todo_id); reflexivity.
Qed.

Lemma update_todo_run (todo_id : Z) (updated_todo : ToDoSchema.t) (db : table) :
  update_todo todo_id updated_todo (SessionLocal db) =
  match db !! todo_id with
  | Some _ =>
      (Return 0%nat,
       mkSession (<[todo_id := row_of updated_todo]> db)
         [Instance (Persistent todo_id) (load todo_id (row_of updated_todo))])
  | None => (Raise (lookup_failure todo_id), SessionLocal db)
  end.
Proof.
  unfold update_todo, mbind, query_first, lookup_failure. simpl.
  destruct (db !! todo_id) as [r|] eqn:E;
    [|destruct (fits_int64 todo_id); reflexivity].
  unfold commit. simpl. unfold flush_instance. simpl. rewrite E.
  destruct (decide (todo_id = todo_id)); [|done]. simpl.
  unfold refresh. simpl. rewrite lookup_insert_eq. reflexivity.
Qed.

Lemma delete_todo_run (todo_id : Z) (db : table) :
  delete_todo todo_id (SessionLocal db) =
  match db !! todo_id with
  | Some r =>
      (Return [("message", VStr "To-Do deleted successfully")],
       mkSession (delete todo_id db) [Instance Detached (load todo_id r)])
  | None => (Raise (lookup_failure todo_id), SessionLocal db)
  end.
Proof.
  unfold delete_todo, mbind, query_first, lookup_failure. simpl.
  destruct (db !! todo_id) as [r|] eqn:E; [reflexivity|].
  destruct (fits_int64 todo_id); reflexivity.
Qed.

Lemma identify_fresh (pre : list (Z * todos.row)) (db : table) (kv : Z * todos.row) :
  kv.1 ∉ pre.*1 ->
  identify kv.1 kv.2 (mkSession db (persistent <$> pre)) =
  (Return (length pre), mkSession db (persistent <$> (pre ++ [kv]))).
Proof.
  intros Hnew. unfold identify. simpl.
  destruct (list_find _ _) as [[o i]|] eqn:E.
  - apply list_find_Some in E as (Hi & Hst & _).
    apply list_lookup_fmap_Some in Hi as (kv' & -> & Hkv'). simpl in Hst.
    inversion Hst as [Heq]. exfalso. apply Hnew. rewrite <- Heq.
    apply list_elem_of_fmap. exists kv'. split; [done|].
    by eapply list_elem_of_lookup_2.
  - unfold allocate. simpl. rewrite length_fmap, fmap_app. reflexivity.
Qed.

Lemma query_rows (l pre : list (Z * todos.row)) (db : table) :
  NoDup (pre.*1 ++ l.*1) ->
  map_each l (fun kv => identify kv.1 kv.2) (mkSession db (persistent <$> pre)) =
  (Return (seq (length pre) (length l)), mkSession db (persistent <$> (pre ++ l))).
Proof.
  revert pre. induction l as [|kv l IH]; intros pre Hnd.
  - simpl. by rewrite app_nil_r.
  - simpl. unfold mbind at 1. rewrite identify_fresh.
    + unfold mbind at 1. rewrite IH.
      * unfold ret. rewrite length_app, <- app_assoc. simpl.
        by replace (length pre + 1)%nat with (S (length pre)) by lia.
      * rewrite fmap_app, <- app_assoc. exact Hnd.
    + apply NoDup_app in Hnd as (_ & Hdisj & _). intros Hin.
      apply (Hdisj _ Hin). simpl. apply list_elem_of_here.
Qed.

Lemma scan_Permutation (db : table) : scan db ≡ₚ map_to_list db.
Proof. apply merge_sort_Permutation. Qed.

Lemma scan_length (db : table) : length (scan db) = size db.
Proof. by rewrite scan_Permutation, length_map_to_list. Qed.

Lemma scan_NoDup (db : table) : NoDup (scan db).*1.
Proof. rewrite scan_Permutation. apply NoDup_fst_map_to_list. Qed.

Lemma elem_of_scan (db : table) (k : Z) (r : todos.row) :
  (k, r) ∈ scan db <-> db !! k = Some r.
Proof. rewrite scan_Permutation. apply elem_of_map_to_list. Qed.

Lemma get_todos_run (db : table) :
  get_todos (SessionLocal db) =
  (Return (seq 0 (size db)), mkSession db (persistent <$> scan db)).
Proof.
  unfold get_todos, query_all, SessionLocal. simpl.
  pose proof (query_rows (scan db) [] db (scan_NoDup db)) as Hq.
  simpl in Hq. by rewrite Hq, scan_length.
Qed.

(** ** What each request does to the database *)

Lemma from_attrs_row_of (pk : Z) (todo : ToDoSchema.t) :
  ToDoResponse.from_attrs (load pk (row_of todo)) = Some (response_of pk todo).
Proof. destruct todo as [t [d|] c]; reflexivity. Qed.

Lemma from_orm_rows (l pre : list (Z * todos.row)) (db : table) :
  map_each (seq (length pre) (length l)) from_orm
    (mkSession db (persistent <$> (pre ++ l))) =
  (or_invalid (mapM serialize l), mkSession db (persistent <$> (pre ++ l))).
Proof.
  revert pre. induction l as [|kv l IH]; intros pre; [reflexivity|].
  simpl. unfold mbind at 1. unfold from_orm at 1, mbind at 1, attributes. simpl.
  rewrite list_lookup_fmap, lookup_app_r, Nat.sub_diag by lia. simpl.
  fold (serialize kv). destruct (serialize kv) as [r|]; simpl; [|reflexivity].
  specialize (IH (pre ++ [kv])). rewrite length_app, <- app_assoc in IH. simpl in IH.
  replace (length pre + 1)%nat with (S (length pre)) in IH by lia.
  unfold mbind. rewrite IH.
  destruct (mapM serialize l); reflexivity.
Qed.

Lemma app_POST (b : Body.t) (db : table) :
  app (POST_todos b) db =
  match ToDoSchema.validate b with
  | None => (Response 422 RequestValidationError, db)
  | Some todo =>
      (Response 200 (Todo (response_of (new_rowid db) todo)),
       <[new_rowid db := row_of todo]> db)
  end.
Proof.
  unfold app. destruct (ToDoSchema.validate b) as [todo|]; [|reflexivity].
  unfold get_db, mbind. rewrite create_todo_run.
  unfold from_orm, mbind, attributes. simpl. fold (load (new_rowid db) (row_of todo)).
  by rewrite from_attrs_row_of.
Qed.

Lemma app_GET_list (db : table) :
  app GET_todos db = (respond Todos (or_invalid (mapM serialize (scan db))), db).
Proof.
  unfold app, get_db, mbind. rewrite get_todos_run.
  pose proof (from_orm_rows (scan db) [] db) as H. simpl in H.
  rewrite scan_length in H. rewrite H. reflexivity.
Qed.

Lemma app_GET (todo_id : Z) (db : table) :
  app (GET_todo todo_id) db =
  match db !! todo_id with
  | None => (failure_response (lookup_failure todo_id), db)
  | Some r => (respond Todo (or_invalid (serialize (todo_id, r))), db)
  end.
Proof.
  unfold app, get_db, mbind. rewrite get_todo_run.
  destruct (db !! todo_id) as [r|];
    [|unfold lookup_failure; destruct (fits_int64 todo_id); reflexivity].
  unfold from_orm, mbind, attributes, serialize. simpl.
  destruct (ToDoResponse.from_attrs _); reflexivity.
Qed.

Lemma app_PUT (todo_id : Z) (b : Body.t) (db : table) :
  app (PUT_todo todo_id b) db =
  match ToDoSchema.validate b with
  | None => (Response 422 RequestValidationError, db)
  | Some todo =>
      match db !! todo_id with
      | None => (failure_response (lookup_failure todo_id), db)
      | Some _ =>
          (Response 200 (Todo (response_of todo_id todo)),
           <[todo_id := row_of todo]> db)
      end
  end.
Proof.
  unfold app. destruct (ToDoSchema.validate b) as [todo|]; [|reflexivity].
  unfold get_db, mbind. rewrite update_todo_run.
  destruct (db !! todo_id) as [r|];
    [|unfold lookup_failure; destruct (fits_int64 todo_id); reflexivity].
  unfold from_orm, mbind, attributes. simpl. fold (load todo_id (row_of todo)).
  by rewrite from_attrs_row_of.
Qed.

Lemma app_DELETE (todo_id : Z) (db : table) :
  app (DELETE_todo todo_id) db =
  match db !! todo_id with
  | None => (failure_response (lookup_failure todo_id), db)
  | Some _ =>
      (Response 200 (Json [("message", VStr "To-Do deleted successfully")]),
       delete todo_id db)
  end.
Proof.
  unfold app, get_db. rewrite delete_todo_run.
  destruct (db !! todo_id); [reflexivity|].
  unfold lookup_failure. destruct (fits_int64 todo_id); reflexivity.
Qed.

Lemma failure_in_range (todo_id : Z) :
  fits_int64 todo_id = true ->
  lookup_failure todo_id = HTTPException 404 "To-Do not found".
Proof. unfold lookup_failure. by intros ->. Qed.

(** ** Examples *)

Example create_then_list :
  (serve [POST_todos buy_milk; GET_todos] ∅).1 =
  [ Response 200 (Todo (ToDoResponse.mk 1 "Buy milk" None false));
    Response 200 (Todos [ToDoResponse.mk 1 "Buy milk" None false]) ].
Proof. vm_compute. reflexivity. Qed.

Example put_resets_omitted_fields :
  (app (PUT_todo 4 buy_milk) {[ 4 := done_row ]}).1 =
  Response 200 (Todo (ToDoResponse.mk 4 "Buy milk" None false)).
Proof. vm_compute. reflexivity. Qed.

Example lookup_beyond_64_bits :
  app (DELETE_todo (-9223372036854775809)) {[ 4 := done_row ]}
  = (Response 500 InternalServerError, {[ 4 := done_row ]}).
Proof. vm_compute. reflexivity. Qed.

Example rowid_below_the_largest :
  new_rowid {[ 9223372036854775806 := done_row ]} = 9223372036854775807.
Proof. vm_compute. reflexivity. Qed.

Example rowid_once_the_largest_is_in_use :
  new_rowid (<[ 1 := done_row ]> {[ 9223372036854775807 := done_row ]}) = 2.
Proof. vm_compute. reflexivity. Qed.

(** ** Update *)

(** C1. A PUT on a stored id with a valid body (title supplied) answers
    200 and writes all three fields from the body, an omitted
    [description] as [None] and an omitted [completed] as [False]; the
    same PUT applied to the resulting database answers the same and
    leaves that database as it is. *)
Theorem update_is_full_replacement
    (db : table) (todo_id : Z) (b : Body.t) (t : string) (r : todos.row) :
  db !! todo_id = Some r ->
  Body.title b = Some t ->
  let written :=
    todos.mk (VStr t) (from_option VStr VNone (Body.description b))
      (VBool (default false (Body.completed b))) in
  let answer :=
    Response 200
      (Todo (ToDoResponse.mk todo_id t (Body.description b)
               (default false (Body.completed b)))) in
  app (PUT_todo todo_id b) db = (answer, <[todo_id := written]> db)
  /\ (app (PUT_todo todo_id b) db).2 !! todo_id = Some written
  /\ app (PUT_todo todo_id b) (app (PUT_todo todo_id b) db).2
     = (answer, (app (PUT_todo todo_id b) db).2).
Proof.
  intros Hr Ht written answer.
  assert (Hput : forall db', is_Some (db' !! todo_id) ->
            app (PUT_todo todo_id b) db' = (answer, <[todo_id := written]> db')).
  { intros db' [r' Hr']. rewrite app_PUT. unfold ToDoSchema.validate.
    rewrite Ht, Hr'. reflexivity. }
  rewrite (Hput db) by eauto. cbn [snd].
  split; [reflexivity|]. split; [apply lookup_insert_eq|].
  rewrite Hput by (rewrite lookup_insert_eq; eauto).
  by rewrite insert_insert_eq.
Qed.

Lemma update_is_full_replacement_witness :
  app (PUT_todo 4 buy_milk) {[ 4 := done_row ]}
  = (Response 200 (Todo (ToDoResponse.mk 4 "Buy milk" None false)),
     <[ 4 := todos.mk (VStr "Buy milk") VNone (VBool false) ]> {[ 4 := done_row ]}).
Proof.
  exact (proj1 (update_is_full_replacement {[ 4 := done_row ]} 4 buy_milk
                  "Buy milk" done_row eq_refl eq_refl)).
Defined.

(** C3, as stated, fails: no row has the id 9223372036854775808, which
    does not fit in 64 bits, and a PUT on it ends in the [OverflowError]
    of the driver, answered 500, not in the 404. *)
Lemma put_out_of_range_is_500 : ~ missing_put_is_404.
Proof.
  intros H.
  specialize (H {[ 4 := done_row ]} 9223372036854775808 buy_milk eq_refl
                (mk_is_Some _ _ eq_refl)).
  vm_compute in H. discriminate.
Qed.

(** C3, amended. A PUT with a valid body on an id that no row has leaves
    the database exactly as it was: no row is created under that id or
    under any other.  When the id fits in a signed 64-bit integer, the
    handler raises the 404 exception. *)
Theorem update_missing_is_404_and_no_write
    (db : table) (todo_id : Z) (b : Body.t) (todo : ToDoSchema.t) :
  db !! todo_id = None ->
  ToDoSchema.validate b = Some todo ->
  (fits_int64 todo_id = true ->
     get_db (update_todo todo_id todo) db
     = (Raise (HTTPException 404 "To-Do not found"), db)
     /\ app (PUT_todo todo_id b) db
        = (Response 404 (Json [("detail", VStr "To-Do not found")]), db))
  /\ (app (PUT_todo todo_id b) db).2 = db
  /\ forall k, (app (PUT_todo todo_id b) db).2 !! k = db !! k.
Proof.
  intros Hnone Hb. rewrite app_PUT, Hb, Hnone. unfold get_db, close. cbn zeta.
  rewrite update_todo_run, Hnone. split; [|done].
  intros Hfits. by rewrite (failure_in_range _ Hfits).
Qed.

Lemma update_missing_is_404_and_no_write_witness :
  app (PUT_todo 7 buy_milk) {[ 4 := done_row ]}
  = (Response 404 (Json [("detail", VStr "To-Do not found")]), {[ 4 := done_row ]}).
Proof.
  exact (proj2 (proj1 (update_missing_is_404_and_no_write {[ 4 := done_row ]} 7
                         buy_milk _ eq_refl eq_refl) eq_refl)).
Defined.

(** ** Creation *)

(** C4. A POST whose body supplies only [title] stores, under the id it
    returns, a row with [completed = False] and [description = None], and
    a GET on that id right afterwards returns those values. *)
Theorem create_applies_defaults (db : table) (t : string) :
  let pk := new_rowid db in
  let stored := todos.mk (VStr t) VNone (VBool false) in
  let answer := Response 200 (Todo (ToDoResponse.mk pk t None false)) in
  app (POST_todos (Body.mk (Some t) None None)) db = (answer, <[pk := stored]> db)
  /\ (app (POST_todos (Body.mk (Some t) None None)) db).2 !! pk = Some stored
  /\ app (GET_todo pk) (app (POST_todos (Body.mk (Some t) None None)) db).2
     = (answer, (app (POST_todos (Body.mk (Some t) None None)) db).2).
Proof.
  intros pk stored answer. rewrite app_POST. cbn [ToDoSchema.validate Body.title snd].
  split; [reflexivity|]. split; [apply lookup_insert_eq|].
  rewrite app_GET. unfold pk at 1. by rewrite lookup_insert_eq.
Qed.

(** ** Deletion *)

(** C5. DELETE on an id that a row has answers 200 with
    [{"message": "To-Do deleted successfully"}] and removes the row: a GET
    on that id right afterwards answers 404.  (The id of a row is a row
    id of the engine: it fits in 64 bits.) *)
Theorem delete_removes_row (db : table) (todo_id : Z) (r : todos.row) :
  db !! todo_id = Some r ->
  app (DELETE_todo todo_id) db
  = (Response 200 (Json [("message", VStr "To-Do deleted successfully")]),
     delete todo_id db)
  /\ (app (DELETE_todo todo_id) db).2 !! todo_id = None
  /\ (fits_int64 todo_id = true ->
      app (GET_todo todo_id) (app (DELETE_todo todo_id) db).2
      = (Response 404 (Json [("detail", VStr "To-Do not found")]),
         (app (DELETE_todo todo_id) db).2)).
Proof.
  intros Hr. rewrite app_DELETE, Hr. cbn [snd].
  split; [reflexivity|]. split; [apply lookup_delete_eq|].
  intros Hfits. by rewrite app_GET, lookup_delete_eq, (failure_in_range _ Hfits).
Qed.

Lemma delete_removes_row_witness :
  app (DELETE_todo 4) {[ 4 := done_row ]}
  = (Response 200 (Json [("message", VStr "To-Do deleted successfully")]),
     delete 4 {[ 4 := done_row ]})
  /\ (app (GET_todo 4) (app (DELETE_todo 4) {[ 4 := done_row ]}).2).1
     = Response 404 (Json [("detail", VStr "To-Do not found")]).
Proof.
  pose proof (delete_removes_row {[ 4 := done_row ]} 4 done_row eq_refl) as (H1 & _ & H3).
  split; [exact H1|]. rewrite (H3 eq_refl). reflexivity.
Defined.

(** ** Reads *)

(** C10. Neither listing nor looking up a row changes the database,
    whether the id is stored or not. *)
Theorem reads_leave_database_unchanged (db : table) :
  (get_db get_todos db).2 = db
  /\ (app GET_todos db).2 = db
  /\ forall todo_id,
       (get_db (get_todo todo_id) db).2 = db
       /\ (app (GET_todo todo_id) db).2 = db.
Proof.
  unfold get_db. rewrite get_todos_run, app_GET_list.
  repeat split; try reflexivity.
  - rewrite get_todo_run. by destruct (db !! todo_id).
  - rewrite app_GET. by destruct (db !! todo_id).
Qed.

(** ** Invariants of the stored rows *)

Lemma serialize_key (k k' : Z) (r : todos.row) :
  is_Some (serialize (k, r)) -> is_Some (serialize (k', r)).
Proof.
  unfold serialize, ToDoResponse.from_attrs. simpl.
  destruct (todos.title r), (todos.completed r), (todos.description r);
    intros [x Hx]; try discriminate; eauto.
Qed.

Lemma typed_insert (db : table) (k : Z) (todo : ToDoSchema.t) :
  typed db -> typed (<[k := row_of todo]> db).
Proof.
  intros Hdb k' r'. destruct (decide (k = k')) as [<-|Hne].
  - rewrite lookup_insert_eq. intros [= <-]. unfold serialize. simpl.
    rewrite from_attrs_row_of. eauto.
  - rewrite lookup_insert_ne by done. apply Hdb.
Qed.

Lemma typed_delete (db : table) (k : Z) : typed db -> typed (delete k db).
Proof.
  intros Hdb k' r' Hr'. apply lookup_delete_Some in Hr' as [_ Hr']. eauto.
Qed.

Lemma app_typed (req : request) (db : table) : typed db -> typed (app req db).2.
Proof.
  intros Hdb. destruct req as [b| |todo_id|todo_id b|todo_id].
  - rewrite app_POST. destruct (ToDoSchema.validate b); [apply typed_insert|]; done.
  - by rewrite app_GET_list.
  - rewrite app_GET. by destruct (db !! todo_id).
  - rewrite app_PUT. destruct (ToDoSchema.validate b); [|done].
    destruct (db !! todo_id); [apply typed_insert|]; done.
  - rewrite app_DELETE. destruct (db !! todo_id); [apply typed_delete|]; done.
Qed.

Lemma serve_cons (req : request) (reqs : list request) (db : table) :
  serve (req :: reqs) db =
  ((app req db).1 :: (serve reqs (app req db).2).1, (serve reqs (app req db).2).2).
Proof.
  simpl. destruct (app req db) as [resp db1]. simpl.
  by destruct (serve reqs db1).
Qed.

Lemma serve_typed (reqs : list request) (db : table) :
  typed db -> typed (serve reqs db).2.
Proof.
  revert db. induction reqs as [|req reqs IH]; intros db Hdb; [done|].
  rewrite serve_cons. simpl. apply IH, app_typed, Hdb.
Qed.

Lemma typed_empty : typed ∅.
Proof. intros k r Hr. by rewrite lookup_empty in Hr. Qed.

Lemma typed_list (db : table) :
  typed db -> exists l, mapM serialize (scan db) = Some l /\ length l = size db.
Proof.
  intros Hdb. destruct (mapM serialize (scan db)) as [l|] eqn:E.
  - exists l. split; [done|]. apply length_mapM in E. by rewrite <- E, scan_length.
  - apply mapM_None in E. apply Exists_exists in E as ([k r] & Hin & Hnone).
    apply elem_of_scan in Hin. destruct (Hdb _ _ Hin) as [x Hx]. congruence.
Qed.

(** ** Lookup *)

Lemma typed_row_shape (k : Z) (r : todos.row) :
  is_Some (serialize (k, r)) ->
  exists s d c,
    r = todos.mk (VStr s) (from_option VStr VNone d) (VBool c)
    /\ serialize (k, r) = Some (ToDoResponse.mk k s d c).
Proof.
  destruct r as [t d c]. unfold serialize, ToDoResponse.from_attrs. simpl.
  destruct t as [| | |s]; try by intros [x Hx].
  destruct c as [|c| |]; try by intros [x Hx].
  destruct d as [| | |d]; try by intros [x Hx].
  - intros _. by exists s, None, c.
  - intros _. by exists s, (Some d), c.
Qed.

(** C2, as stated, fails: no row has the id 9223372036854775808, which
    does not fit in 64 bits, and a GET on it ends in the [OverflowError]
    of the driver, answered 500, not in the 404. *)
Lemma get_out_of_range_is_500 : ~ missing_get_is_404.
Proof.
  intros H. specialize (H {[ 4 := done_row ]} 9223372036854775808 eq_refl).
  vm_compute in H. discriminate.
Qed.

(** C2, amended. GET on an id that fits in a signed 64-bit integer and
    that no row has raises the 404 exception, answered with the body
    [{"detail": "To-Do not found"}]; GET on an id that a row has makes the
    handler return the object of that row, which is sent with status 200
    when the row fits the response schema, as every row does in a state
    reached from the empty table. *)
Theorem get_todo_row_or_404 (db : table) (todo_id : Z) :
  (db !! todo_id = None ->
   fits_int64 todo_id = true ->
     get_db (get_todo todo_id) db = (Raise (HTTPException 404 "To-Do not found"), db)
     /\ app (GET_todo todo_id) db
        = (Response 404 (Json [("detail", VStr "To-Do not found")]), db))
  /\ (forall r, db !! todo_id = Some r ->
        get_db (o <- get_todo todo_id ;; attributes o) db
        = (Return (ToDoDB.mk (VInt todo_id) (todos.title r) (todos.description r)
                     (todos.completed r)), db)
        /\ (forall x, ToDoResponse.from_attrs (load todo_id r) = Some x ->
              app (GET_todo todo_id) db = (Response 200 (Todo x), db))
        /\ (forall reqs, db = (serve reqs ∅).2 ->
              exists s d c,
                r = todos.mk (VStr s) (from_option VStr VNone d) (VBool c)
                /\ app (GET_todo todo_id) db
                   = (Response 200 (Todo (ToDoResponse.mk todo_id s d c)), db))).
Proof.
  split.
  - intros Hnone Hfits. rewrite app_GET. unfold get_db, close. cbn zeta.
    rewrite get_todo_run, Hnone, (failure_in_range _ Hfits). done.
  - intros r Hr. rewrite app_GET. unfold get_db, close, mbind. cbn zeta.
    rewrite get_todo_run, Hr. split; [reflexivity|]. split.
    + intros x Hx. unfold serialize. simpl. by rewrite Hx.
    + intros reqs ->.
      destruct (typed_row_shape todo_id r) as (s & d & c & Hshape & Hser).
      { eapply serve_typed; [apply typed_empty|exact Hr]. }
      exists s, d, c. split; [exact Hshape|]. by rewrite Hser.
Qed.

Lemma get_todo_row_or_404_witness :
  app (GET_todo 7) {[ 4 := done_row ]}
  = (Response 404 (Json [("detail", VStr "To-Do not found")]), {[ 4 := done_row ]})
  /\ app (GET_todo 4) {[ 4 := done_row ]}
     = (Response 200 (Todo (ToDoResponse.mk 4 "Pay rent" (Some "before the 1st") true)),
        {[ 4 := done_row ]}).
Proof.
  split.
  - exact (proj2 (proj1 (get_todo_row_or_404 {[ 4 := done_row ]} 7) eq_refl eq_refl)).
  - exact (proj1 (proj2 (proj2 (get_todo_row_or_404 {[ 4 := done_row ]} 4)
                           done_row eq_refl)) _ eq_refl).
Defined.

(** ** Counting rows *)

Lemma serve_size (reqs : list request) (db : table) :
  (size (serve reqs db).2 + tally is_DELETE reqs (serve reqs db).1
   = size db + tally is_POST reqs (serve reqs db).1)%nat.
Proof.
  revert db. induction reqs as [|req reqs IH]; intros db; [simpl; lia|].
  rewrite serve_cons. cbn [fst snd tally].
  specialize (IH (app req db).2).
  destruct req as [b| |todo_id|todo_id b|todo_id]; cbn [is_POST is_DELETE andb].
  - rewrite app_POST in *. destruct (ToDoSchema.validate b) as [todo|]; cbn [fst snd] in *.
    + rewrite map_size_insert_None in IH by apply new_rowid_fresh.
      unfold succeeded. simpl. lia.
    + unfold succeeded. simpl. lia.
  - rewrite app_GET_list in *. cbn [fst snd] in *. lia.
  - rewrite app_GET in *. destruct (db !! todo_id); cbn [fst snd] in *; lia.
  - rewrite app_PUT in *. destruct (ToDoSchema.validate b) as [todo|]; cbn [fst snd] in *; [|lia].
    destruct (db !! todo_id) as [r|] eqn:E; cbn [fst snd] in *; [|lia].
    rewrite map_size_insert_Some in IH by eauto. lia.
  - rewrite app_DELETE in *. destruct (db !! todo_id) as [r|] eqn:E; cbn [fst snd] in *.
    + pose proof (map_size_delete_Some todo_id db (ltac:(eauto))) as Hs.
      pose proof (map_size_ne_0_lookup_2 db todo_id (ltac:(eauto))) as Hpos.
      unfold succeeded. simpl. lia.
    + unfold succeeded, lookup_failure. destruct (fits_int64 todo_id); simpl; lia.
Qed.

(** C7. Starting from the empty table, after any sequence of requests of
    which N were POSTs answered 200 and M were DELETEs answered 200,
    GET /todos/ answers 200 with a list of exactly N - M rows. *)
Theorem list_counts_created_minus_deleted (reqs : list request) :
  let N := tally is_POST reqs (serve reqs ∅).1 in
  let M := tally is_DELETE reqs (serve reqs ∅).1 in
  exists l,
    app GET_todos (serve reqs ∅).2 = (Response 200 (Todos l), (serve reqs ∅).2)
    /\ (M <= N)%nat
    /\ length l = (N - M)%nat.
Proof.
  intros N M.
  destruct (typed_list (serve reqs ∅).2) as (l & Hl & Hlen);
    [apply serve_typed, typed_empty|].
  exists l. rewrite app_GET_list, Hl. split; [reflexivity|].
  pose proof (serve_size reqs ∅) as Hs. rewrite map_size_empty in Hs.
  fold N M in Hs. lia.
Qed.

(** ** Titles *)

Lemma titled_insert (db : table) (k : Z) (todo : ToDoSchema.t) :
  titled db -> titled (<[k := row_of todo]> db).
Proof.
  intros Hdb k' r'. destruct (decide (k = k')) as [<-|Hne].
  - rewrite lookup_insert_eq. intros [= <-]. simpl. eauto.
  - rewrite lookup_insert_ne by done. apply Hdb.
Qed.

Lemma titled_delete (db : table) (k : Z) : titled db -> titled (delete k db).
Proof.
  intros Hdb k' r' Hr'. apply lookup_delete_Some in Hr' as [_ Hr']. eauto.
Qed.

Lemma app_titled (req : request) (db : table) : titled db -> titled (app req db).2.
Proof.
  intros Hdb. destruct req as [b| |todo_id|todo_id b|todo_id].
  - rewrite app_POST. destruct (ToDoSchema.validate b); [apply titled_insert|]; done.
  - by rewrite app_GET_list.
  - rewrite app_GET. by destruct (db !! todo_id).
  - rewrite app_PUT. destruct (ToDoSchema.validate b); [|done].
    destruct (db !! todo_id); [apply titled_insert|]; done.
  - rewrite app_DELETE. destruct (db !! todo_id); [apply titled_delete|]; done.
Qed.

Lemma titled_empty : titled ∅.
Proof. intros k r Hr. by rewrite lookup_empty in Hr. Qed.

Lemma titled_singleton (k : Z) (r : todos.row) (s : string) :
  todos.title r = VStr s -> titled {[ k := r ]}.
Proof.
  intros Hs k' r' Hr'. apply lookup_singleton_Some in Hr' as [_ <-]. eauto.
Qed.

(** C9. The handlers [create_todo] and [update_todo], and every one of
    the five requests, keep the property that each stored row has a
    string (not [None]) as its title; so it holds in every state reached
    from the empty table. *)
Theorem title_is_never_null :
  (forall todo db, titled db -> titled (get_db (create_todo todo) db).2)
  /\ (forall todo_id todo db, titled db -> titled (get_db (update_todo todo_id todo) db).2)
  /\ (forall req db, titled db -> titled (app req db).2)
  /\ (forall reqs, titled (serve reqs ∅).2).
Proof.
  split; [|split; [|split]].
  - intros todo db Hdb. unfold get_db. rewrite create_todo_run. by apply titled_insert.
  - intros todo_id todo db Hdb. unfold get_db. rewrite update_todo_run.
    destruct (db !! todo_id); [apply titled_insert|]; done.
  - apply app_titled.
  - intros reqs. generalize titled_empty. generalize (∅ : table).
    induction reqs as [|req reqs IH]; intros db Hdb; [done|].
    rewrite serve_cons. simpl. apply IH, app_titled, Hdb.
Qed.

Lemma title_is_never_null_witness :
  titled (app (PUT_todo 4 buy_milk) {[ 4 := done_row ]}).2
  /\ titled (serve [POST_todos buy_milk; DELETE_todo 1; POST_todos buy_milk] ∅).2.
Proof.
  split.
  - exact (proj1 (proj2 (proj2 title_is_never_null)) (PUT_todo 4 buy_milk)
             {[ 4 := done_row ]} (titled_singleton 4 done_row "Pay rent" eq_refl)).
  - exact (proj2 (proj2 (proj2 title_is_never_null))
             [POST_todos buy_milk; DELETE_todo 1; POST_todos buy_milk]).
Defined.

(** ** Ids *)

(** C6, as stated, fails: after POST, DELETE of the row just created and
    POST again, the second row receives the id of the first. *)
Lemma id_reused_after_delete : ~ ids_never_reused.
Proof.
  intros H.
  apply (H [POST_todos buy_milk; DELETE_todo 1] buy_milk
           (ToDoResponse.mk 1 "Buy milk" None false)).
  - vm_compute. reflexivity.
  - vm_compute. apply list_elem_of_here.
Qed.

Example id_reused_trace :
  created_ids [POST_todos buy_milk; DELETE_todo 1; POST_todos buy_milk]
    (serve [POST_todos buy_milk; DELETE_todo 1; POST_todos buy_milk] ∅).1 = [1; 1].
Proof. vm_compute. reflexivity. Qed.

(** C6, amended. The id of the row a POST returns is not the id of any
    row stored when the request arrives. *)
Theorem create_id_is_unused (db : table) (b : Body.t) (x : ToDoResponse.t) :
  (app (POST_todos b) db).1 = Response 200 (Todo x) ->
  db !! ToDoResponse.id x = None
  /\ is_Some ((app (POST_todos b) db).2 !! ToDoResponse.id x).
Proof.
  rewrite app_POST. destruct (ToDoSchema.validate b) as [todo|]; [|discriminate].
  cbn [fst snd]. intros [= <-]. cbn [response_of ToDoResponse.id].
  split; [apply new_rowid_fresh|].
  rewrite lookup_insert_eq. eauto.
Qed.

Lemma create_id_is_unused_witness :
  ({[ 4 := done_row ]} : table) !! 5 = None
  /\ is_Some ((app (POST_todos buy_milk) {[ 4 := done_row ]}).2 !! 5).
Proof.
  exact (create_id_is_unused {[ 4 := done_row ]} buy_milk
           (ToDoResponse.mk 5 "Buy milk" None false) eq_refl).
Defined.

(** The loop of [update_todo] on the one object of a session: the three
    fields of the schema are assigned, [id] and the state of the object
    are not. *)
Lemma setattr_loop_keeps_id
    (updated_todo : ToDoSchema.t) (db : table) (st : instance_state) (a : ToDoDB.t) :
  for_each (ToDoSchema.dict updated_todo) (fun kv => setattr 0%nat kv.1 kv.2)
    (mkSession db [Instance st a]) =
  (Return tt,
   mkSession db
     [Instance st
        (ToDoDB.mk (ToDoDB.id a) (VStr (ToDoSchema.title updated_todo))
           (from_option VStr VNone (ToDoSchema.description updated_todo))
           (VBool (ToDoSchema.completed updated_todo)))]).
Proof. reflexivity. Qed.

(** C8. No request changes the id of a stored row: a row stays under its
    id unless a DELETE targets it, and the only id that can appear is the
    one a POST assigns to the row it creates.  A successful PUT assigns
    [title], [description] and [completed] of the targeted object and
    nothing else: the object keeps its id, the set of stored ids is the
    same, and every other row is untouched. *)
Theorem id_is_immutable :
  (forall req db k,
     is_Some (db !! k) -> req <> DELETE_todo k -> is_Some ((app req db).2 !! k))
  /\ (forall req db k,
        is_Some ((app req db).2 !! k) ->
        is_Some (db !! k) \/ exists b, req = POST_todos b /\ k = new_rowid db)
  /\ (forall db todo_id b todo r,
        db !! todo_id = Some r ->
        ToDoSchema.validate b = Some todo ->
        get_db (o <- update_todo todo_id todo ;; attributes o) db
        = (Return (ToDoDB.mk (VInt todo_id) (VStr (ToDoSchema.title todo))
                     (from_option VStr VNone (ToDoSchema.description todo))
                     (VBool (ToDoSchema.completed todo))),
           (app (PUT_todo todo_id b) db).2)
        /\ (exists x, (app (PUT_todo todo_id b) db).1 = Response 200 (Todo x)
                      /\ ToDoResponse.id x = todo_id)
        /\ dom (app (PUT_todo todo_id b) db).2 = dom db
        /\ forall k, k <> todo_id -> (app (PUT_todo todo_id b) db).2 !! k = db !! k).
Proof.
  split; [|split].
  - intros req db k Hk Hreq. destruct req as [b| |todo_id|todo_id b|todo_id].
    + rewrite app_POST. destruct (ToDoSchema.validate b); [|done]. cbn [snd].
      rewrite lookup_insert_ne; [done|]. intros Heq.
      rewrite <- Heq, new_rowid_fresh in Hk. by destruct Hk.
    + by rewrite app_GET_list.
    + rewrite app_GET. by destruct (db !! todo_id).
    + rewrite app_PUT. destruct (ToDoSchema.validate b); [|done].
      destruct (db !! todo_id) eqn:E; [|done]. cbn [snd].
      destruct (decide (todo_id = k)) as [->|Hne].
      * rewrite lookup_insert_eq. eauto.
      * by rewrite lookup_insert_ne.
    + rewrite app_DELETE. destruct (db !! todo_id) eqn:E; [|done]. cbn [snd].
      rewrite lookup_delete_ne; [done|]. congruence.
  - intros req db k. destruct req as [b| |todo_id|todo_id b|todo_id].
    + rewrite app_POST. destruct (ToDoSchema.validate b); [|by left]. cbn [snd].
      destruct (decide (new_rowid db = k)) as [<-|Hne]; [right; eauto|].
      rewrite lookup_insert_ne by done. by left.
    + rewrite app_GET_list. by left.
    + rewrite app_GET. destruct (db !! todo_id); by left.
    + rewrite app_PUT. destruct (ToDoSchema.validate b); [|by left].
      destruct (db !! todo_id) eqn:E; [|by left]. cbn [snd].
      destruct (decide (todo_id = k)) as [<-|Hne]; [rewrite E; eauto|].
      rewrite lookup_insert_ne by done. by left.
    + rewrite app_DELETE. destruct (db !! todo_id) eqn:E; [|by left]. cbn [snd].
      intros [x Hx]. apply lookup_delete_Some in Hx as [_ Hx]. left. eauto.
  - intros db todo_id b todo r Hr Hb. rewrite app_PUT, Hb, Hr. cbn [fst snd].
    unfold get_db, mbind. rewrite update_todo_run, Hr.
    split; [reflexivity|]. split; [eexists; split; reflexivity|]. split.
    + apply dom_insert_lookup_L. eauto.
    + intros k Hk. by rewrite lookup_insert_ne.
Qed.

Lemma id_is_immutable_witness :
  dom (app (PUT_todo 4 buy_milk) {[ 4 := done_row ]}).2
  = dom ({[ 4 := done_row ]} : table).
Proof.
  exact (proj1 (proj2 (proj2 (proj2 (proj2 id_is_immutable) {[ 4 := done_row ]} 4
                                buy_milk _ done_row eq_refl eq_refl)))).
Defined.

(** * Further properties of the handlers *)

(** ** Missing ids *)

(** X1. DELETE on an id that no row has leaves the database as it was;
    when the id fits in a signed 64-bit integer the handler raises the
    404 exception of [delete_todo]. *)
Theorem delete_missing_is_404_and_no_write (db : table) (todo_id : Z) :
  db !! todo_id = None ->
  (app (DELETE_todo todo_id) db).2 = db
  /\ (fits_int64 todo_id = true ->
      get_db (delete_todo todo_id) db
      = (Raise (HTTPException 404 "To-Do not found"), db)
      /\ app (DELETE_todo todo_id) db
         = (Response 404 (Json [("detail", VStr "To-Do not found")]), db)).
Proof.
  intros Hnone. rewrite app_DELETE, Hnone. unfold get_db, close. cbn zeta.
  rewrite delete_todo_run, Hnone. split; [reflexivity|].
  intros Hfits. by rewrite (failure_in_range _ Hfits).
Qed.

Lemma delete_missing_is_404_and_no_write_witness :
  app (DELETE_todo 7) two_rows
  = (Response 404 (Json [("detail", VStr "To-Do not found")]), two_rows).
Proof.
  exact (proj2 (proj2 (delete_missing_is_404_and_no_write two_rows 7 eq_refl) eq_refl)).
Defined.

(** X2. GET, PUT (with a valid body) and DELETE answer 404 exactly when
    the id of the path fits in a signed 64-bit integer and no row has
    it. *)
Theorem not_found_exactly_when_missing (db : table) (todo_id : Z) :
  (status_code (app (GET_todo todo_id) db).1 = 404
   <-> db !! todo_id = None /\ fits_int64 todo_id = true)
  /\ (status_code (app (DELETE_todo todo_id) db).1 = 404
      <-> db !! todo_id = None /\ fits_int64 todo_id = true)
  /\ (forall b, is_Some (ToDoSchema.validate b) ->
        (status_code (app (PUT_todo todo_id b) db).1 = 404
         <-> db !! todo_id = None /\ fits_int64 todo_id = true)).
Proof.
  assert (Hmiss : status_code (failure_response (lookup_failure todo_id)) = 404
                  <-> fits_int64 todo_id = true).
  { unfold lookup_failure. destruct (fits_int64 todo_id); simpl; split; done. }
  split; [|split].
  - rewrite app_GET. destruct (db !! todo_id) as [r|]; cbn [fst].
    + destruct (serialize (todo_id, r)); simpl; split; [done|by intros [? _]|done|by intros [? _]].
    + rewrite Hmiss. tauto.
  - rewrite app_DELETE. destruct (db !! todo_id); cbn [fst].
    + simpl; split; [done|by intros [? _]].
    + rewrite Hmiss. tauto.
  - intros b [todo Hb]. rewrite app_PUT, Hb. destruct (db !! todo_id); cbn [fst].
    + simpl; split; [done|by intros [? _]].
    + rewrite Hmiss. tauto.
Qed.

Lemma not_found_exactly_when_missing_witness :
  status_code (app (PUT_todo 2 full_body) two_rows).1 = 404
  <-> two_rows !! 2 = None /\ fits_int64 2 = true.
Proof.
  exact (proj2 (proj2 (not_found_exactly_when_missing two_rows 2)) full_body
           (mk_is_Some _ _ eq_refl)).
Defined.

(** X3. Once a row is deleted, a second DELETE and a PUT with a valid
    body on its id change nothing: the row is not brought back.  Both
    answer 404.  (The id of a row is a row id of the engine: it fits in
    64 bits.) *)
Theorem deleted_row_stays_deleted
    (db : table) (todo_id : Z) (r : todos.row) (b : Body.t) :
  db !! todo_id = Some r ->
  is_Some (ToDoSchema.validate b) ->
  let db' := (app (DELETE_todo todo_id) db).2 in
  db' !! todo_id = None
  /\ (app (DELETE_todo todo_id) db').2 = db'
  /\ (app (PUT_todo todo_id b) db').2 = db'
  /\ (fits_int64 todo_id = true ->
      app (DELETE_todo todo_id) db'
      = (Response 404 (Json [("detail", VStr "To-Do not found")]), db')
      /\ app (PUT_todo todo_id b) db'
         = (Response 404 (Json [("detail", VStr "To-Do not found")]), db')).
Proof.
  intros Hr [todo Hb] db'.
  assert (Hgone : db' !! todo_id = None).
  { unfold db'. rewrite app_DELETE, Hr. apply lookup_delete_eq. }
  rewrite app_DELETE, app_PUT, Hb, Hgone. repeat split; try done.
  all: intros; by rewrite failure_in_range.
Qed.

Lemma deleted_row_stays_deleted_witness :
  (app (PUT_todo 4 full_body) (app (DELETE_todo 4) two_rows).2).1
  = Response 404 (Json [("detail", VStr "To-Do not found")]).
Proof.
  pose proof (deleted_row_stays_deleted two_rows 4 done_row full_body eq_refl
                (mk_is_Some _ _ eq_refl)) as (_ & _ & _ & H).
  cbv zeta in H. destruct (H eq_refl) as [_ H']. rewrite H'. reflexivity.
Defined.

(** ** What a write leaves alone *)

(** X4. A POST with a valid body adds exactly one row, under the id it
    returns, and leaves every row that was stored as it was. *)
Theorem create_adds_one_row_and_keeps_the_rest
    (db : table) (b : Body.t) (todo : ToDoSchema.t) :
  ToDoSchema.validate b = Some todo ->
  exists x,
    (app (POST_todos b) db).1 = Response 200 (Todo x)
    /\ size (app (POST_todos b) db).2 = S (size db)
    /\ (forall k r, db !! k = Some r -> (app (POST_todos b) db).2 !! k = Some r)
    /\ (forall k, k <> ToDoResponse.id x -> (app (POST_todos b) db).2 !! k = db !! k).
Proof.
  intros Hb. rewrite app_POST, Hb. cbn [fst snd].
  exists (response_of (new_rowid db) todo). split; [reflexivity|].
  split; [apply map_size_insert_None, new_rowid_fresh|]. split.
  - intros k r Hr. rewrite lookup_insert_ne; [done|].
    intros Heq. rewrite <- Heq, new_rowid_fresh in Hr. discriminate.
  - intros k Hk. simpl in Hk. by rewrite lookup_insert_ne.
Qed.

Lemma create_adds_one_row_and_keeps_the_rest_witness :
  exists x,
    (app (POST_todos full_body) two_rows).1 = Response 200 (Todo x)
    /\ size (app (POST_todos full_body) two_rows).2 = S (size two_rows).
Proof.
  destruct (create_adds_one_row_and_keeps_the_rest two_rows full_body _ eq_refl)
    as (x & H1 & H2 & _).
  exists x. exact (conj H1 H2).
Defined.

(** X5. A DELETE, whether it finds its row or not, leaves every row with
    another id as it was; when it finds the row, the table has exactly
    one row less. *)
Theorem delete_removes_only_its_row (db : table) (todo_id k : Z) :
  k <> todo_id ->
  (app (DELETE_todo todo_id) db).2 !! k = db !! k
  /\ (is_Some (db !! todo_id) ->
        S (size (app (DELETE_todo todo_id) db).2) = size db).
Proof.
  intros Hk. rewrite app_DELETE. destruct (db !! todo_id) as [r|] eqn:E; cbn [snd].
  - split; [by rewrite lookup_delete_ne|]. intros _.
    pose proof (map_size_delete_Some todo_id db (ltac:(eauto))) as Hs.
    pose proof (map_size_ne_0_lookup_2 db todo_id (ltac:(eauto))) as Hpos.
    lia.
  - split; [done|]. by intros [? ?].
Qed.

Lemma delete_removes_only_its_row_witness :
  (app (DELETE_todo 4) two_rows).2 !! 2 = two_rows !! 2
  /\ S (size (app (DELETE_todo 4) two_rows).2) = size two_rows.
Proof.
  pose proof (delete_removes_only_its_row two_rows 4 2 ltac:(discriminate)) as [H1 H2].
  exact (conj H1 (H2 (mk_is_Some _ _ eq_refl))).
Defined.

(** ** Round trips *)

(** X6. What is posted is what is read: for every body with a title, the
    GET on the id that POST returned answers with the title, description
    and completed flag of the body (defaults where they were omitted),
    and with that id. *)
Theorem create_then_get_round_trip (db : table) (b : Body.t) (t : string) :
  Body.title b = Some t ->
  exists pk,
    let answer :=
      Response 200
        (Todo (ToDoResponse.mk pk t (Body.description b)
                 (default false (Body.completed b)))) in
    (app (POST_todos b) db).1 = answer
    /\ app (GET_todo pk) (app (POST_todos b) db).2
       = (answer, (app (POST_todos b) db).2).
Proof.
  intros Ht. exists (new_rowid db). intros answer.
  rewrite app_POST. unfold ToDoSchema.validate. rewrite Ht. cbn [fst snd].
  split; [reflexivity|].
  rewrite app_GET, lookup_insert_eq. unfold serialize. cbn [fst snd].
  by rewrite from_attrs_row_of.
Qed.

Lemma create_then_get_round_trip_witness :
  exists pk,
    (app (POST_todos full_body) two_rows).1
    = Response 200 (Todo (ToDoResponse.mk pk "Call mum" (Some "on Sunday") true)).
Proof.
  destruct (create_then_get_round_trip two_rows full_body "Call mum" eq_refl)
    as (pk & H & _).
  exists pk. exact H.
Defined.

(** X7. Read your writes: after a PUT on a stored id, the GET on that id
    answers exactly what the PUT answered. *)
Theorem update_then_get_round_trip
    (db : table) (todo_id : Z) (b : Body.t) (r : todos.row) :
  db !! todo_id = Some r ->
  is_Some (ToDoSchema.validate b) ->
  status_code (app (PUT_todo todo_id b) db).1 = 200
  /\ app (GET_todo todo_id) (app (PUT_todo todo_id b) db).2
     = app (PUT_todo todo_id b) db.
Proof.
  intros Hr [todo Hb]. rewrite app_PUT, Hb, Hr. cbn [fst snd].
  split; [reflexivity|].
  rewrite app_GET, lookup_insert_eq. unfold serialize. cbn [fst snd].
  by rewrite from_attrs_row_of.
Qed.

Lemma update_then_get_round_trip_witness :
  app (GET_todo 4) (app (PUT_todo 4 buy_milk) two_rows).2
  = app (PUT_todo 4 buy_milk) two_rows.
Proof.
  exact (proj2 (update_then_get_round_trip two_rows 4 buy_milk done_row eq_refl
                  (mk_is_Some _ _ eq_refl))).
Defined.

Lemma serialize_inv (k : Z) (r : todos.row) (x : ToDoResponse.t) :
  serialize (k, r) = Some x ->
  ToDoResponse.id x = k
  /\ r = row_of (ToDoSchema.mk (ToDoResponse.title x) (ToDoResponse.description x)
                   (ToDoResponse.completed x)).
Proof.
  intros Hx. destruct (typed_row_shape k r) as (s & d & c & -> & Hser); [eauto|].
  rewrite Hser in Hx. by injection Hx as <-.
Qed.

(** X8. Sending back with PUT what GET returned changes nothing: the
    table stays as it is and the PUT answers what the GET answered. *)
Theorem get_then_put_is_noop (db : table) (todo_id : Z) (x : ToDoResponse.t) :
  (app (GET_todo todo_id) db).1 = Response 200 (Todo x) ->
  app (PUT_todo todo_id (body_of x)) db = (Response 200 (Todo x), db).
Proof.
  rewrite app_GET. destruct (db !! todo_id) as [r|] eqn:E;
    [|unfold lookup_failure; destruct (fits_int64 todo_id); discriminate].
  destruct (serialize (todo_id, r)) as [y|] eqn:Hy; [|discriminate].
  cbn [fst or_invalid respond]. intros [= ->].
  apply serialize_inv in Hy as [Hid Hrow].
  rewrite app_PUT. cbn [ToDoSchema.validate body_of Body.title Body.description
                          Body.completed default]. rewrite E.
  f_equal.
  - destruct x as [i s d c]. simpl in Hid. subst i. reflexivity.
  - apply insert_id. by rewrite E, Hrow.
Qed.

Lemma get_then_put_is_noop_witness :
  app (PUT_todo 4 (body_of (ToDoResponse.mk 4 "Pay rent" (Some "before the 1st") true)))
    two_rows
  = (Response 200 (Todo (ToDoResponse.mk 4 "Pay rent" (Some "before the 1st") true)),
     two_rows).
Proof.
  exact (get_then_put_is_noop two_rows 4
           (ToDoResponse.mk 4 "Pay rent" (Some "before the 1st") true) eq_refl).
Defined.

(** ** Sequences of writes *)

(** X9. The last PUT wins: two PUTs with valid bodies on a stored id
    leave the database, and answer the second request, exactly as the
    second PUT alone would; nothing of the first body survives. *)
Theorem last_put_wins (db : table) (todo_id : Z) (b1 b2 : Body.t) (r : todos.row) :
  db !! todo_id = Some r ->
  is_Some (ToDoSchema.validate b1) ->
  is_Some (ToDoSchema.validate b2) ->
  app (PUT_todo todo_id b2) (app (PUT_todo todo_id b1) db).2
  = app (PUT_todo todo_id b2) db.
Proof.
  intros Hr [t1 H1] [t2 H2]. rewrite !app_PUT, H1, H2, Hr. cbn [snd].
  by rewrite lookup_insert_eq, insert_insert_eq.
Qed.

Lemma last_put_wins_witness :
  app (PUT_todo 4 full_body) (app (PUT_todo 4 buy_milk) two_rows).2
  = app (PUT_todo 4 full_body) two_rows.
Proof.
  exact (last_put_wins two_rows 4 buy_milk full_body done_row eq_refl
           (mk_is_Some _ _ eq_refl) (mk_is_Some _ _ eq_refl)).
Defined.

(** X10. POST does not deduplicate: the same valid body posted twice is
    answered with two different ids, and afterwards both ids hold a row
    with the same contents. *)
Theorem create_twice_gives_two_rows (db : table) (b : Body.t) (todo : ToDoSchema.t) :
  ToDoSchema.validate b = Some todo ->
  let db1 := (app (POST_todos b) db).2 in
  let db2 := (app (POST_todos b) db1).2 in
  exists x1 x2,
    (app (POST_todos b) db).1 = Response 200 (Todo x1)
    /\ (app (POST_todos b) db1).1 = Response 200 (Todo x2)
    /\ ToDoResponse.id x1 <> ToDoResponse.id x2
    /\ db2 !! ToDoResponse.id x1 = Some (row_of todo)
    /\ db2 !! ToDoResponse.id x2 = Some (row_of todo)
    /\ size db2 = S (S (size db)).
Proof.
  intros Hb db1 db2. unfold db2, db1. rewrite !app_POST, Hb. cbn [fst snd].
  set (db' := <[new_rowid db := row_of todo]> db).
  assert (Hne : new_rowid db <> new_rowid db').
  { intros Heq. pose proof (new_rowid_fresh db') as Hfresh.
    rewrite <- Heq in Hfresh. unfold db' in Hfresh.
    rewrite lookup_insert_eq in Hfresh. discriminate. }
  exists (response_of (new_rowid db) todo), (response_of (new_rowid db') todo).
  split; [reflexivity|]. split; [reflexivity|]. split; [exact Hne|].
  cbn [response_of ToDoResponse.id].
  rewrite lookup_insert_eq, lookup_insert_ne by done. unfold db' at 1.
  rewrite lookup_insert_eq. split; [reflexivity|]. split; [reflexivity|].
  rewrite map_size_insert_None by apply new_rowid_fresh. unfold db'.
  by rewrite map_size_insert_None by apply new_rowid_fresh.
Qed.

Lemma create_twice_gives_two_rows_witness :
  exists x1 x2,
    (app (POST_todos buy_milk) two_rows).1 = Response 200 (Todo x1)
    /\ (app (POST_todos buy_milk) (app (POST_todos buy_milk) two_rows).2).1
       = Response 200 (Todo x2)
    /\ ToDoResponse.id x1 <> ToDoResponse.id x2.
Proof.
  destruct (create_twice_gives_two_rows two_rows buy_milk _ eq_refl)
    as (x1 & x2 & H1 & H2 & H3 & _).
  exists x1, x2. exact (conj H1 (conj H2 H3)).
Defined.

(** ** Errors *)

(** X11. A request that is not answered with status 200 has written
    nothing: the database after it is the database before it. *)
Theorem errors_never_write (req : request) (db : table) :
  status_code (app req db).1 <> 200 ->
  (app req db).2 = db.
Proof.
  destruct req as [b| |todo_id|todo_id b|todo_id].
  - rewrite app_POST. by destruct (ToDoSchema.validate b).
  - by rewrite app_GET_list.
  - rewrite app_GET. by destruct (db !! todo_id).
  - rewrite app_PUT. destruct (ToDoSchema.validate b); [|done].
    by destruct (db !! todo_id).
  - rewrite app_DELETE. by destruct (db !! todo_id).
Qed.

Lemma errors_never_write_witness :
  (app (PUT_todo 7 full_body) two_rows).2 = two_rows
  /\ (app (POST_todos (Body.mk None (Some "no title") None)) two_rows).2 = two_rows.
Proof.
  split.
  - exact (errors_never_write (PUT_todo 7 full_body) two_rows ltac:(discriminate)).
  - exact (errors_never_write (POST_todos (Body.mk None (Some "no title") None))
             two_rows ltac:(discriminate)).
Defined.

Lemma app_handled (req : request) (db : table) :
  typed db -> path_fits req = true -> handled (app req db).1.
Proof.
  intros Hdb Hfits. unfold handled.
  destruct req as [b| |todo_id|todo_id b|todo_id]; cbn [path_fits] in Hfits.
  - rewrite app_POST. destruct (ToDoSchema.validate b); simpl; eauto.
  - rewrite app_GET_list. destruct (typed_list db Hdb) as (l & -> & _). simpl; eauto.
  - rewrite app_GET. destruct (db !! todo_id) as [r|] eqn:E.
    + destruct (Hdb _ _ E) as [x ->]. simpl; eauto.
    + rewrite (failure_in_range _ Hfits). simpl; eauto.
  - rewrite app_PUT. destruct (ToDoSchema.validate b); [|simpl; eauto].
    destruct (db !! todo_id); [simpl; eauto|].
    rewrite (failure_in_range _ Hfits). simpl; eauto.
  - rewrite app_DELETE. destruct (db !! todo_id); [simpl; eauto|].
    rewrite (failure_in_range _ Hfits). simpl; eauto.
Qed.

(** X12. Over any sequence of requests whose path ids fit in a signed
    64-bit integer, served from the empty table, every response has
    status 200, 404 or 422: no handler ends in an unhandled exception and
    every row a handler returns passes the response schema. *)
Theorem no_unhandled_fault (reqs : list request) :
  Forall (fun req => path_fits req = true) reqs ->
  Forall handled (serve reqs ∅).1.
Proof.
  generalize typed_empty. generalize (∅ : table).
  induction reqs as [|req reqs IH]; intros db Hdb Hreqs; [constructor|].
  apply Forall_cons in Hreqs as [Hreq Hreqs].
  rewrite serve_cons. cbn [fst]. constructor.
  - by apply app_handled.
  - by apply IH; [apply app_typed|].
Qed.

Lemma no_unhandled_fault_witness :
  Forall handled
    (serve [POST_todos buy_milk; GET_todo 1; PUT_todo 7 full_body; DELETE_todo 1;
            GET_todos] ∅).1.
Proof.
  apply no_unhandled_fault. repeat constructor.
Defined.

(** ** Listing *)

Lemma listed_ids (rows : list (Z * todos.row)) (l : list ToDoResponse.t) :
  Forall2 (fun kv x => serialize kv = Some x) rows l ->
  ToDoResponse.id <$> l = rows.*1.
Proof.
  induction 1 as [|[k r] x rows l Hx _ IH]; [reflexivity|].
  apply serialize_inv in Hx as [Hid _]. rewrite !fmap_cons. cbn [fst].
  by rewrite Hid, IH.
Qed.

Lemma typed_two_rows : typed two_rows.
Proof.
  intros k r Hr. unfold two_rows in Hr.
  apply lookup_insert_Some in Hr as [[<- <-]|[_ Hr]]; [by eexists|].
  apply lookup_singleton_Some in Hr as [<- <-]. by eexists.
Qed.

(** X13. When every stored row fits the response schema, GET /todos/
    answers 200 with one entry per stored row and no other: no id occurs
    twice, and an entry is in the list exactly when GET /todos/{id} on
    its id answers with that entry.  The list is empty exactly when the
    table is. *)
Theorem list_agrees_with_get (db : table) :
  typed db ->
  exists l,
    app GET_todos db = (Response 200 (Todos l), db)
    /\ NoDup (ToDoResponse.id <$> l)
    /\ (forall x, x ∈ l <->
          app (GET_todo (ToDoResponse.id x)) db = (Response 200 (Todo x), db))
    /\ (l = [] <-> db = ∅).
Proof.
  intros Hdb. destruct (typed_list db Hdb) as (l & Hl & Hlen).
  exists l. rewrite app_GET_list, Hl. split; [reflexivity|].
  apply mapM_Some in Hl. split; [|split].
  - rewrite (listed_ids _ _ Hl). apply scan_NoDup.
  - intros x. rewrite app_GET. split.
    + intros Hin. apply list_elem_of_lookup in Hin as [i Hi].
      destruct (Forall2_lookup_r _ _ _ _ _ Hl Hi) as ([k r] & Hkr & Hx).
      pose proof (serialize_inv _ _ _ Hx) as [Hid _]. rewrite Hid.
      apply list_elem_of_lookup_2, elem_of_scan in Hkr. by rewrite Hkr, Hx.
    + destruct (db !! ToDoResponse.id x) as [r|] eqn:E;
        [|unfold lookup_failure; destruct (fits_int64 _); discriminate].
      destruct (serialize (ToDoResponse.id x, r)) as [y|] eqn:Hy; [|discriminate].
      cbn [or_invalid respond]. intros [= ->].
      apply elem_of_scan, list_elem_of_lookup in E as [i Hi].
      destruct (Forall2_lookup_l _ _ _ _ _ Hl Hi) as (y & Hy' & Hser).
      rewrite Hy in Hser. injection Hser as <-. by eapply list_elem_of_lookup_2.
  - rewrite <- map_size_empty_iff, <- Hlen. split; [by intros ->|].
    by destruct l.
Qed.

Lemma list_agrees_with_get_witness :
  exists l,
    app GET_todos two_rows = (Response 200 (Todos l), two_rows)
    /\ NoDup (ToDoResponse.id <$> l).
Proof.
  destruct (list_agrees_with_get two_rows typed_two_rows) as (l & H1 & H2 & _).
  exists l. exact (conj H1 H2).
Defined.
